(** * Babylogger: an HTTP logging middleware

    A shallow embedding of the Go package [babylogger] and proofs about its
    response-capturing writer ([logWriter]) and its logging decorator
    ([Middleware]).

    Three revisions of [babylogger.go] are present in the sources; the
    capturing writer is the same in all of them, the decorator differs:
    - [Legacy]    : fixed colour table, [checkTTY], byte count as ["%dB"];
    - [Humanized] : fixed colour table, [checkTTY], humanized byte count;
    - [Lipgloss]  : lipgloss styles, [Hijack], nil-request guard, humanized
                    byte count. *)

From Stdlib Require Import ZArith String Ascii DecimalString.
From stdpp Require Import base option list strings gmap.

Local Open Scope Z_scope.

(** ** Go's built-in data *)

(** Go's [int] on a 64-bit platform: two's complement, wrapping. *)
Definition intSize : Z := 64.
Definition MaxInt : Z := 2 ^ (intSize - 1) - 1.
Definition MinInt : Z := - 2 ^ (intSize - 1).

Definition wrap_int (z : Z) : Z :=
  (z + 2 ^ (intSize - 1)) `mod` 2 ^ intSize - 2 ^ (intSize - 1).

(** The conversion [uint64(x)] of an [int]. *)
Definition uint64 (z : Z) : Z := z `mod` 2 ^ 64.

(** A Go [error] value: [None] is [nil], [Some msg] carries the message. *)
Definition error : Type := option string.

(** ** The pieces of [strings] and [fmt] the package calls *)

Definition len (s : string) : Z := Z.of_nat (String.length s).

(** [fmt.Sprintf("%d", n)]. *)
Definition Itoa (n : Z) : string := NilZero.string_of_int (Z.to_int n).

(** [strings.LastIndex(s, sep)] for a one-byte [sep]: scan from the end. *)
Fixpoint lastIndexFrom (s : string) (c : ascii) (i : nat) : Z :=
  match i with
  | O => -1
  | S j =>
      match String.get j s with
      | Some a => if Ascii.eqb a c then Z.of_nat j else lastIndexFrom s c j
      | None => lastIndexFrom s c j
      end
  end.

Definition LastIndex (s : string) (c : ascii) : Z :=
  lastIndexFrom s c (String.length s).

(** The slice expression [s[:hi]]. *)
Definition slice_to (s : string) (hi : Z) : string :=
  String.substring 0 (Z.to_nat hi) s.

(** If [old] is a prefix of [s], what follows it. *)
Fixpoint trimPrefix (old s : string) : option string :=
  match old, s with
  | EmptyString, _ => Some s
  | String a old', String b s' =>
      if Ascii.eqb a b then trimPrefix old' s' else None
  | String _ _, EmptyString => None
  end.

(** [strings.Replace(s, old, new, n)] for a non-empty [old]: the first [n]
    occurrences from the left are replaced, all of them when [n < 0]. *)
Fixpoint replaceFrom (fuel : nat) (s old new : string) (n : Z) : string :=
  match fuel with
  | O => s
  | S fuel' =>
      if n =? 0 then s
      else match s with
           | EmptyString => EmptyString
           | String c s' =>
               match trimPrefix old s with
               | Some rest => new +:+ replaceFrom fuel' rest old new (n - 1)
               | None => String c (replaceFrom fuel' s' old new n)
               end
           end
  end.

Definition Replace (s old new : string) (n : Z) : string :=
  replaceFrom (S (String.length s)) s old new n.

(** ** [net/http] constants *)

Definition StatusOK : Z := 200.
Definition StatusTemporaryRedirect : Z := 307.
Definition StatusNotFound : Z := 404.
Definition StatusInternalServerError : Z := 500.

(** [*http.Request]: the three fields the logger reads.  A nil pointer is
    [None : option Request]. *)
Record Request : Type := {
  Method : string;
  RequestURI : string;
  RemoteAddr : string
}.

(** ** [http.ResponseWriter]

    The interface is a class over the state [W] of the implementation.
    [Write] returns the count and the error with the new state;
    [asHijacker] is the outcome of the type assertion
    [w.(http.Hijacker)]: the [Hijack] method when the implementation has
    one.  [Conn] and [ReadWriter] stand for [net.Conn] and
    [*bufio.ReadWriter]; [None] is nil. *)
Section Interface.
Variables Conn ReadWriter : Type.

Definition hijacked : Type := (option Conn * option ReadWriter * error)%type.

Class ResponseWriter (W : Type) : Type := {
  Write : W -> string -> (Z * error) * W;
  WriteHeader : W -> Z -> W;
  asHijacker : option (W -> hijacked * W)
}.
End Interface.

Arguments Write {Conn ReadWriter W _} w p.
Arguments WriteHeader {Conn ReadWriter W _} w code.
Arguments asHijacker {Conn ReadWriter W _}.

(** ** The capturing writer *)

Section LogWriter.
Context {Conn ReadWriter : Type} {W : Type} `{!ResponseWriter Conn ReadWriter W}.

(** [type logWriter struct { http.ResponseWriter; code, bytes int }] *)
Record logWriter : Type := {
  inner : W;       (* the embedded http.ResponseWriter *)
  code : Z;
  bytes : Z
}.

Definition logWriter_Write (r : logWriter) (p : string)
  : (Z * error) * logWriter :=
  let '((written, err), w') := Write (inner r) p in
  ((written, err),
   {| inner := w'; code := code r; bytes := wrap_int (bytes r + written) |}).

Definition logWriter_WriteHeader (r : logWriter) (c : Z) : logWriter :=
  {| inner := WriteHeader (inner r) c; code := c; bytes := bytes r |}.

Definition logWriter_Hijack (r : logWriter)
  : hijacked Conn ReadWriter * logWriter :=
  match asHijacker with
  | None =>
      ((None, None, Some "WebServer does not support hijacking"%string), r)
  | Some hj =>
      let '(res, w') := hj (inner r) in
      (res, {| inner := w'; code := code r; bytes := bytes r |})
  end.

(** [*logWriter] is itself an [http.ResponseWriter], and an
    [http.Hijacker] whatever it wraps. *)
#[export] Instance logWriter_ResponseWriter
  : ResponseWriter Conn ReadWriter logWriter := {|
  Write := logWriter_Write;
  WriteHeader := logWriter_WriteHeader;
  asHijacker := Some logWriter_Hijack
|}.
End LogWriter.

Arguments logWriter W : clear implicits.

(** ** Inner handlers

    What an [http.Handler] does with the writer it is given, as a tree of
    calls on the [http.ResponseWriter] interface; each continuation takes
    what the call returned.  [DoHijack] is the type assertion to
    [http.Hijacker] followed, when it holds, by the call of [Hijack]. *)
Section Handlers.
Context {Conn ReadWriter : Type}.

Inductive prog : Type :=
| Done
| DoWrite (p : string) (k : Z -> error -> prog)
| DoWriteHeader (c : Z) (k : prog)
| DoHijack (k : option (hijacked Conn ReadWriter) -> prog).

(** One call as the handler saw it. *)
Inductive event : Type :=
| EvWrite (p : string) (n : Z) (err : error)
| EvWriteHeader (c : Z)
| EvHijack (res : option (hijacked Conn ReadWriter)).

(** Run a handler against a writer: the calls in order, and the writer
    it leaves behind. *)
Fixpoint run {W : Type} `{!ResponseWriter Conn ReadWriter W}
    (h : prog) (w : W) : list event * W :=
  match h with
  | Done => ([], w)
  | DoWrite p k =>
      let '((n, err), w') := Write w p in
      let '(evs, w'') := run (k n err) w' in
      (EvWrite p n err :: evs, w'')
  | DoWriteHeader c k =>
      let '(evs, w') := run k (WriteHeader w c) in
      (EvWriteHeader c :: evs, w')
  | DoHijack k =>
      match asHijacker with
      | None =>
          let '(evs, w') := run (k None) w in
          (EvHijack None :: evs, w')
      | Some hj =>
          let '(res, w') := hj w in
          let '(evs, w'') := run (k (Some res)) w' in
          (EvHijack (Some res) :: evs, w'')
      end
  end.

(** [next.ServeHTTP(writer, r)], for the handler's behaviour on [r]. *)
Definition ServeHTTP {W : Type} `{!ResponseWriter Conn ReadWriter W}
    (h : prog) (w : W) : W := snd (run h w).

(** [N] calls of [Write] in a row, on any writer: what each returned. *)
Fixpoint writes {W : Type} `{!ResponseWriter Conn ReadWriter W}
    (ps : list string) (w : W) : list (Z * error) * W :=
  match ps with
  | [] => ([], w)
  | p :: ps' =>
      let '(res, w') := Write w p in
      let '(rest, w'') := writes ps' w' in
      (res :: rest, w'')
  end.

(** [http.Error(w, msg, code)]: the status, then the message and a
    newline (the headers it sets are not part of this model). *)
Definition http_Error {W : Type} `{!ResponseWriter Conn ReadWriter W}
    (w : W) (msg : string) (c : Z) : W :=
  snd (Write (WriteHeader w c) (msg +:+ String (ascii_of_nat 10) "")).
End Handlers.

Arguments prog : clear implicits.
Arguments event : clear implicits.

(** The status codes set by [WriteHeader], and the counts returned by
    [Write], along a run. *)
Definition headerCodes {Conn ReadWriter} (evs : list (event Conn ReadWriter))
  : list Z :=
  omap (fun e => match e with EvWriteHeader c => Some c | _ => None end) evs.

Definition writeCounts {Conn ReadWriter} (evs : list (event Conn ReadWriter))
  : list Z :=
  omap (fun e => match e with EvWrite _ n _ => Some n | _ => None end) evs.

Definition sumZ (l : list Z) : Z := foldr Z.add 0 l.


(** ** The logging sink and run-time panics

    [log.Printf] appends one message to the log; dereferencing a nil
    pointer panics, which ends the handler function with what had been
    logged so far. *)
Inductive outcome (A : Type) : Type :=
| Returned (a : A)
| Panicked.
Arguments Returned {A} a.
Arguments Panicked {A}.

Definition Log (A : Type) : Type := list string -> outcome A * list string.

#[export] Instance Log_ret : MRet Log := fun A a lines => (Returned a, lines).

#[export] Instance Log_bind : MBind Log := fun A B f m lines =>
  match m lines with
  | (Returned a, lines') => f a lines'
  | (Panicked, lines') => (Panicked, lines')
  end.

Definition Printf (line : string) : Log unit :=
  fun lines => (Returned tt, lines ++ [line]).

(** The first field access through [r]. *)
Definition deref (r : option Request) : Log Request :=
  fun lines =>
    match r with
    | Some req => (Returned req, lines)
    | None => (Panicked, lines)
    end.

(** [t.Sub(u)] on nanosecond readings; a [time.Duration] is an [int64]
    and [Sub] saturates. *)
Definition Sub (t u : Z) : Z := Z.max (- 2 ^ 63) (Z.min (2 ^ 63 - 1) (t - u)).

(** ** Collaborators outside the repository

    [http.StatusText], [time.Duration.String], [humanize.Bytes] (on a
    [uint64]) and lipgloss's [Style.Render] are taken as given. *)
Record Style : Type := {
  Light : string;   (* Foreground(AdaptiveColor{Light: ..., Dark: ...}) *)
  Dark : string
}.

Class Collaborators : Type := {
  StatusText : Z -> string;
  Duration_String : Z -> string;
  humanize_Bytes : Z -> string;
  Render : Style -> string -> string
}.

(** [strings.Replace(humanize.Bytes(uint64(n)), " ", "", 1)] *)
Definition formattedBytes `{!Collaborators} (n : Z) : string :=
  Replace (humanize_Bytes (uint64 n)) " " "" 1.

(** ** The colour table of the first two revisions *)

Definition ESC : string := String "027"%char "".
Definition reset : string := ESC +:+ "[0m".
Definition fg : string := ESC +:+ "[38;5;".
Definition end' : string := "m".

Definition violet : Z := 0.
Definition red : Z := 1.
Definition yellow : Z := 2.
Definition green : Z := 3.
Definition cyan : Z := 4.
Definition darkGrey : Z := 5.
Definition grey : Z := 6.

Definition colors : gmap Z string :=
  {[ violet := fg +:+ "62" +:+ end';
     red := fg +:+ "204" +:+ end';
     yellow := fg +:+ "192" +:+ end';
     green := fg +:+ "48" +:+ end';
     cyan := fg +:+ "86" +:+ end';
     darkGrey := fg +:+ "240" +:+ end';
     grey := fg +:+ "250" +:+ end' ]}.

(** Indexing a Go map: the zero value for a missing key. *)
Definition index (m : gmap Z string) (k : Z) : string := default "" (m !! k).

(** [checkTTY] on the package-level table [m]; [isTerminal] is what
    [terminal.IsTerminal(int(os.Stdout.Fd()))] answers. *)
Definition checkTTY (isTerminal : bool) (m : gmap Z string) : gmap Z string :=
  if negb isTerminal
  then foldr (fun k acc => <[k := ""]> acc) m (map_to_list m).*1
  else m.

(** ** The decorator, first revision *)
Module Legacy.
Section Middleware.
Context {Conn ReadWriter W : Type} `{!ResponseWriter Conn ReadWriter W}.
Context `{!Collaborators}.

(** The handler function [Middleware] returns; [table] is the
    package-level [colors] when the request is served, [startTime] and
    [endTime] the two readings of [time.Now()]. *)
Definition handlerFunc (next : Request -> prog Conn ReadWriter)
    (table : gmap Z string) (w : W) (r : option Request)
    (startTime endTime : Z) : Log (logWriter W) :=
  req ← deref r;
  let addr := RemoteAddr req in
  let colon := LastIndex addr ":" in
  let addr := if bool_decide (colon ≠ -1) then slice_to addr colon else addr in
  let arrow := index table darkGrey +:+ "<-" in
  let method := index table violet +:+ Method req in
  let uri := index table grey +:+ RequestURI req in
  let address := index table darkGrey +:+ addr in
  _ ← Printf (arrow +:+ " " +:+ method +:+ " " +:+ uri +:+ " "
               +:+ address +:+ reset);
  let writer := {| inner := w; code := StatusOK; bytes := 0 |} in
  let arrow := index table darkGrey +:+ "->" in
  let writer := ServeHTTP (next req) writer in
  let elapsedTime := Sub endTime startTime in
  let status := Itoa (code writer) +:+ " " +:+ StatusText (code writer) in
  let status :=
    if code writer <? 300 then index table green +:+ status
    else if code writer <? 400 then index table yellow +:+ status
    else if code writer <? 500 then index table cyan +:+ status
    else index table red +:+ status in
  let bytes := index table grey +:+ Itoa (bytes writer) +:+ "B" in
  let time := index table darkGrey +:+ Duration_String elapsedTime in
  _ ← Printf (arrow +:+ " " +:+ status +:+ " " +:+ bytes +:+ " "
               +:+ time +:+ reset);
  mret writer.

(** [Middleware(next)]: [checkTTY()] on the table, then the handler. *)
Definition Middleware (isTerminal : bool) (table : gmap Z string)
    (next : Request -> prog Conn ReadWriter)
  : gmap Z string
    * (gmap Z string -> W -> option Request -> Z -> Z -> Log (logWriter W)) :=
  (checkTTY isTerminal table, handlerFunc next).
End Middleware.
End Legacy.

(** ** The decorator, second revision: the byte count is humanized *)
Module Humanized.
Section Middleware.
Context {Conn ReadWriter W : Type} `{!ResponseWriter Conn ReadWriter W}.
Context `{!Collaborators}.

Definition handlerFunc (next : Request -> prog Conn ReadWriter)
    (table : gmap Z string) (w : W) (r : option Request)
    (startTime endTime : Z) : Log (logWriter W) :=
  req ← deref r;
  let addr := RemoteAddr req in
  let colon := LastIndex addr ":" in
  let addr := if bool_decide (colon ≠ -1) then slice_to addr colon else addr in
  let arrow := index table darkGrey +:+ "<-" in
  let method := index table violet +:+ Method req in
  let uri := index table grey +:+ RequestURI req in
  let address := index table darkGrey +:+ addr in
  _ ← Printf (arrow +:+ " " +:+ method +:+ " " +:+ uri +:+ " "
               +:+ address +:+ reset);
  let writer := {| inner := w; code := StatusOK; bytes := 0 |} in
  let arrow := index table darkGrey +:+ "->" in
  let writer := ServeHTTP (next req) writer in
  let elapsedTime := Sub endTime startTime in
  let status := Itoa (code writer) +:+ " " +:+ StatusText (code writer) in
  let status :=
    if code writer <? 300 then index table green +:+ status
    else if code writer <? 400 then index table yellow +:+ status
    else if code writer <? 500 then index table cyan +:+ status
    else index table red +:+ status in
  let bytes := index table grey +:+ formattedBytes (bytes writer) in
  let time := index table darkGrey +:+ Duration_String elapsedTime in
  _ ← Printf (arrow +:+ " " +:+ status +:+ " " +:+ bytes +:+ " "
               +:+ time +:+ reset);
  mret writer.

Definition Middleware (isTerminal : bool) (table : gmap Z string)
    (next : Request -> prog Conn ReadWriter)
  : gmap Z string
    * (gmap Z string -> W -> option Request -> Z -> Z -> Log (logWriter W)) :=
  (checkTTY isTerminal table, handlerFunc next).
End Middleware.
End Humanized.

(** ** The decorator, current revision: lipgloss styles, nil guard *)
Module Lipgloss.

Definition timeStyle : Style := {| Light := "240"; Dark := "240" |}.
Definition uriStyle : Style := timeStyle.
Definition methodStyle : Style := {| Light := "62"; Dark := "62" |}.
Definition http200Style : Style := {| Light := "35"; Dark := "48" |}.
Definition http300Style : Style := {| Light := "208"; Dark := "192" |}.
Definition http400Style : Style := {| Light := "39"; Dark := "86" |}.
Definition http500Style : Style := {| Light := "203"; Dark := "204" |}.
Definition subtleStyle : Style := {| Light := "250"; Dark := "250" |}.
Definition addressStyle : Style := subtleStyle.

(** The [if]/[else if] chain that picks [statusStyle]. *)
Definition statusStyle (c : Z) : Style :=
  if c <? 300 then http200Style
  else if c <? 400 then http300Style
  else if c <? 500 then http400Style
  else http500Style.

Section Middleware.
Context {Conn ReadWriter W : Type} `{!ResponseWriter Conn ReadWriter W}.
Context `{!Collaborators}.

Definition Middleware (next : Request -> prog Conn ReadWriter)
    (w : W) (r : option Request) (startTime endTime : Z)
  : Log (logWriter W) :=
  req ← deref r;
  let addr := RemoteAddr req in
  let colon := LastIndex addr ":" in
  let addr := if bool_decide (colon ≠ -1) then slice_to addr colon else addr in
  let arrow := Render subtleStyle "<-" in
  let method := Render methodStyle (Method req) in
  let uri := Render uriStyle (RequestURI req) in
  let address := Render addressStyle addr in
  _ ← Printf (arrow +:+ " " +:+ method +:+ " " +:+ uri +:+ " " +:+ address);
  let writer := {| inner := w; code := StatusOK; bytes := 0 |} in
  let arrow := Render subtleStyle "->" in
  let writer :=
    match r with
    | None =>
        {| inner := http_Error (Conn := Conn) (ReadWriter := ReadWriter) w
                      (StatusText StatusInternalServerError)
                      StatusInternalServerError;
           code := StatusInternalServerError;
           bytes := bytes writer |}
    | Some r' => ServeHTTP (next r') writer
    end in
  let elapsedTime := Sub endTime startTime in
  let status :=
    Render (statusStyle (code writer))
      (Itoa (code writer) +:+ " " +:+ StatusText (code writer)) in
  let bytes := Render subtleStyle (formattedBytes (bytes writer)) in
  let time := Render timeStyle (Duration_String elapsedTime) in
  _ ← Printf (arrow +:+ " " +:+ status +:+ " " +:+ bytes +:+ " " +:+ time);
  mret writer.
End Middleware.
End Lipgloss.

(** ** Sample collaborators, writers and handlers *)

(** Does the byte [c] occur in [s]? *)
Fixpoint occurs (c : ascii) (s : string) : bool :=
  match s with
  | EmptyString => false
  | String a s' => Ascii.eqb a c || occurs c s'
  end.

(** Plain rendering (no colour profile) and a terminal rendering. *)
Definition plainRender (_ : Style) (s : string) : string := s.
Definition darkRender (st : Style) (s : string) : string :=
  fg +:+ Dark st +:+ end' +:+ s +:+ reset.

Definition sampleStatusText (c : Z) : string :=
  if c =? 200 then "OK"
  else if c =? 307 then "Temporary Redirect"
  else if c =? 404 then "Not Found"
  else if c =? 500 then "Internal Server Error"
  else "".

(** Byte counts below 1000 as [humanize.Bytes] prints them. *)
Definition sampleBytes (n : Z) : string := Itoa n +:+ " B".

Definition sampleCollaborators (render : Style -> string -> string)
  : Collaborators := {|
  StatusText := sampleStatusText;
  Duration_String := fun d => Itoa d +:+ "ns";
  humanize_Bytes := sampleBytes;
  Render := render
|}.

(** A writer that keeps the status and the body it is given.  It accepts
    at most [limit] bytes per call and reports a short write beyond. *)
Record recorder : Type := {
  limit : Z;
  status : option Z;
  body : string
}.

Definition recorder_Write (w : recorder) (p : string)
  : (Z * error) * recorder :=
  if len p <=? limit w
  then ((len p, None),
        {| limit := limit w; status := status w; body := body w +:+ p |})
  else ((limit w, Some "short write"),
        {| limit := limit w; status := status w;
           body := body w +:+ slice_to p (limit w) |}).

Definition recorder_WriteHeader (w : recorder) (c : Z) : recorder :=
  {| limit := limit w; status := Some c; body := body w |}.

(** Without, and with, a connection to take over. *)
Definition recorder_plain : ResponseWriter unit unit recorder := {|
  Write := recorder_Write;
  WriteHeader := recorder_WriteHeader;
  asHijacker := None
|}.

Definition recorder_hijackable : ResponseWriter unit unit recorder := {|
  Write := recorder_Write;
  WriteHeader := recorder_WriteHeader;
  asHijacker := Some (fun w => ((Some tt, Some tt, None), w))
|}.

Definition fresh (n : Z) : recorder :=
  {| limit := n; status := None; body := "" |}.

(** The handler of the example program. *)
Definition exampleHandler (r : Request) : prog unit unit :=
  if String.eqb (RequestURI r) "/" then
    DoWriteHeader StatusOK (DoWrite "oh hey" (fun _ _ => Done))
  else if String.eqb (RequestURI r) "/meow" then
    DoWriteHeader StatusTemporaryRedirect
      (DoWrite "it's over there" (fun _ _ => Done))
  else if String.eqb (RequestURI r) "/purr" then
    DoWriteHeader StatusNotFound (DoWrite "nope, not here" (fun _ _ => Done))
  else
    DoWriteHeader StatusInternalServerError
      (DoWrite "ouch" (fun _ _ => Done)).

Definition getRoot : Request :=
  {| Method := "GET"; RequestURI := "/"; RemoteAddr := "127.0.0.1:9999" |}.

Definition postMeow : Request :=
  {| Method := "POST"; RequestURI := "/meow"; RemoteAddr := "10.0.0.5:54321" |}.

(** The sample collaborators without colour. *)
Definition plain : Collaborators := sampleCollaborators plainRender.

(** * Facts *)

(** ** Strings *)
Section StringFacts.
Implicit Types (s pre post : string) (c a : ascii).

Lemma get_past_prefix pre c post (n : nat) :
  String.get (n + S (String.length pre)) (pre +:+ String c post)
  = String.get n post.
Proof.
  induction pre as [|b pre IH]; simpl.
  - by rewrite Nat.add_1_r.
  - by rewrite Nat.add_succ_r.
Qed.

Lemma get_at_prefix pre c post :
  String.get (String.length pre) (pre +:+ String c post) = Some c.
Proof. induction pre as [|b pre IH]; simpl; done. Qed.

Lemma occurs_get c s (n : nat) a :
  occurs c s = false -> String.get n s = Some a -> Ascii.eqb a c = false.
Proof.
  revert n. induction s as [|b s IH]; intros n Hocc Hget; simpl in *; [done|].
  apply orb_false_iff in Hocc as [Hb Hs].
  destruct n as [|n]; [by simplify_eq|]. by eapply IH.
Qed.

Lemma lastIndexFrom_absent c s (i : nat) :
  occurs c s = false -> lastIndexFrom s c i = -1.
Proof.
  intros Hocc. induction i as [|j IH]; simpl; [done|].
  destruct (String.get j s) as [a|] eqn:Hget; [|done].
  by rewrite (occurs_get _ _ _ _ Hocc Hget).
Qed.

Lemma lastIndexFrom_split c pre post (k : nat) :
  occurs c post = false ->
  lastIndexFrom (pre +:+ String c post) c (k + S (String.length pre))
  = len pre.
Proof.
  intros Hocc. induction k as [|k IH].
  - cbn [Nat.add lastIndexFrom].
    by rewrite get_at_prefix, Ascii.eqb_refl.
  - cbn [Nat.add lastIndexFrom]. rewrite get_past_prefix.
    destruct (String.get k post) as [a|] eqn:Hget; [|done].
    by rewrite (occurs_get _ _ _ _ Hocc Hget).
Qed.

Lemma length_app_cons pre c post :
  String.length (pre +:+ String c post)
  = (String.length post + S (String.length pre))%nat.
Proof. induction pre as [|b pre IH]; simpl; lia. Qed.

Lemma LastIndex_absent c s : occurs c s = false -> LastIndex s c = -1.
Proof. apply lastIndexFrom_absent. Qed.

Lemma LastIndex_split c pre post :
  occurs c post = false -> LastIndex (pre +:+ String c post) c = len pre.
Proof.
  intros Hocc. unfold LastIndex. rewrite length_app_cons.
  by apply lastIndexFrom_split.
Qed.

Lemma slice_to_prefix pre s : slice_to (pre +:+ s) (len pre) = pre.
Proof.
  unfold slice_to, len. rewrite Nat2Z.id.
  induction pre as [|b pre IH]; simpl.
  - by destruct s.
  - by rewrite IH.
Qed.

(** A string in which [c] occurs splits at the last occurrence. *)
Lemma occurs_split_last c s :
  occurs c s = true ->
  exists pre post, s = pre +:+ String c post /\ occurs c post = false.
Proof.
  induction s as [|b s IH]; simpl; [done|].
  destruct (occurs c s) eqn:Hs.
  - intros _. destruct IH as (pre & post & -> & Hpost); [done|].
    by exists (String b pre), post.
  - rewrite orb_false_r. intros Hb%Ascii.eqb_eq. subst b.
    by exists EmptyString, s.
Qed.

Lemma trimPrefix_space_miss a s :
  Ascii.eqb a " " = false -> trimPrefix " " (String a s) = None.
Proof. cbn [trimPrefix]. rewrite Ascii.eqb_sym. by intros ->. Qed.

(** Replacing the first space of [num ++ " " ++ unit] when [num] has none. *)
Lemma replaceFrom_first_space (fuel : nat) num unit :
  occurs " " num = false ->
  (String.length num < fuel)%nat ->
  replaceFrom fuel (num +:+ String " " unit) " " "" 1 = num +:+ unit.
Proof.
  revert fuel. induction num as [|a num IH]; intros fuel Hocc Hfuel.
  - destruct fuel as [|fuel]; [simpl in Hfuel; lia|].
    simpl. by destruct fuel.
  - destruct fuel as [|fuel]; [simpl in Hfuel; lia|].
    simpl in Hocc. apply orb_false_iff in Hocc as [Ha Hnum].
    change (String a num +:+ String " " unit)
      with (String a (num +:+ String " " unit)).
    change (String a num +:+ unit) with (String a (num +:+ unit)).
    cbn [replaceFrom Z.eqb].
    rewrite (trimPrefix_space_miss _ _ Ha).
    f_equal. apply IH; [done|]. simpl in Hfuel. lia.
Qed.

Lemma Replace_first_space num unit :
  occurs " " num = false ->
  Replace (num +:+ " " +:+ unit) " " "" 1 = num +:+ unit.
Proof.
  intros Hocc. change (" " +:+ unit) with (String " " unit).
  unfold Replace. apply replaceFrom_first_space; [done|].
  rewrite length_app_cons. lia.
Qed.

Lemma occurs_app c s1 s2 :
  occurs c (s1 +:+ s2) = occurs c s1 || occurs c s2.
Proof.
  induction s1 as [|a s1 IH]; simpl; [done|]. by rewrite IH, orb_assoc.
Qed.
End StringFacts.

(** ** Machine integers *)
Section IntFacts.

Lemma wrap_int_small z : MinInt <= z <= MaxInt -> wrap_int z = z.
Proof.
  unfold wrap_int, MinInt, MaxInt, intSize. intros Hz.
  rewrite Z.mod_small; lia.
Qed.

Lemma wrap_int_range z : MinInt <= wrap_int z <= MaxInt.
Proof.
  unfold wrap_int, MinInt, MaxInt, intSize.
  pose proof (Z.mod_pos_bound (z + 2 ^ (64 - 1)) (2 ^ 64)). lia.
Qed.

Lemma wrap_int_add_l a b : wrap_int (wrap_int a + b) = wrap_int (a + b).
Proof.
  unfold wrap_int, intSize. f_equal.
  replace ((a + 2 ^ (64 - 1)) `mod` 2 ^ 64 - 2 ^ (64 - 1) + b + 2 ^ (64 - 1))
    with ((a + 2 ^ (64 - 1)) `mod` 2 ^ 64 + b) by lia.
  rewrite Zplus_mod_idemp_l. f_equal. lia.
Qed.

Lemma sumZ_nonneg l : Forall (fun n => 0 <= n) l -> 0 <= sumZ l.
Proof. induction 1; simpl; lia. Qed.

Lemma sumZ_take_le (k : nat) l :
  Forall (fun n => 0 <= n) l ->
  0 <= sumZ (take k l) <= sumZ (take (S k) l)
  /\ sumZ (take (S k) l) <= sumZ l.
Proof.
  intros Hl. revert k. induction Hl as [|x l Hx Hl IH]; intros k.
  - by destruct k.
  - destruct k as [|k].
    + simpl. pose proof (sumZ_nonneg (take 0 l)) as H0.
      rewrite take_0 in H0. pose proof (sumZ_nonneg l Hl). simpl. lia.
    + specialize (IH k). cbn [take sumZ foldr] in *. unfold sumZ in *. lia.
Qed.
End IntFacts.

(** ** The capturing writer *)
Section WriterFacts.
Context {Conn ReadWriter W : Type} `{!ResponseWriter Conn ReadWriter W}.
Implicit Types (r : logWriter W) (w : W) (p : string).
Implicit Types (h : prog Conn ReadWriter).

Lemma logWriter_Write_unfold r p :
  Write r p
  = ((Write (inner r) p).1,
     {| inner := (Write (inner r) p).2; code := code r;
        bytes := wrap_int (bytes r + (Write (inner r) p).1.1) |}).
Proof.
  cbn [Write logWriter_ResponseWriter]. unfold logWriter_Write.
  by destruct (Write (inner r) p) as [[n err] w'].
Qed.

(** C6: [Write] on the capturing writer calls the underlying [Write]
    once, on the same bytes, and hands its count and its error back as
    they are; the status is not touched. *)
Theorem Write_returns_underlying_result r p :
  (logWriter_Write r p).1 = (Write (inner r) p).1
  /\ inner (logWriter_Write r p).2 = (Write (inner r) p).2
  /\ code (logWriter_Write r p).2 = code r.
Proof.
  change (logWriter_Write r p) with (Write r p).
  by rewrite logWriter_Write_unfold.
Qed.

(** C8: [Hijack] on the capturing writer delegates to the underlying
    writer's [Hijack] when it has one and returns its result; otherwise
    it returns no connection, no buffer and the error
    "WebServer does not support hijacking", leaving the writer as it was. *)
Theorem Hijack_delegates_or_fails r :
  (forall hj, asHijacker = Some hj ->
     (logWriter_Hijack r).1 = (hj (inner r)).1
     /\ inner (logWriter_Hijack r).2 = (hj (inner r)).2)
  /\ (asHijacker (W := W) = None ->
     logWriter_Hijack r
     = ((None, None, Some "WebServer does not support hijacking"%string), r)).
Proof.
  unfold logWriter_Hijack. split.
  - intros hj ->. by destruct (hj (inner r)).
  - by intros ->.
Qed.

(** The status after a run through the capturing writer is the last one
    the handler set, and the one it started with when none was set. *)
Lemma run_code h r :
  code (run h r).2 = default (code r) (last (headerCodes (run h r).1)).
Proof.
  revert r. induction h as [|p k IH|c k IH|k IH]; intros r.
  - done.
  - cbn [run]. rewrite logWriter_Write_unfold.
    destruct (Write (inner r) p) as [[n err] w']. cbn [fst snd].
    specialize (IH n err
      {| inner := w'; code := code r; bytes := wrap_int (bytes r + n) |}).
    destruct (run (k n err) _) as [evs r'']. exact IH.
  - cbn [run]. specialize (IH (WriteHeader r c)).
    destruct (run k (WriteHeader r c)) as [evs r'']. cbn [fst snd] in *.
    rewrite IH.
    change (headerCodes (EvWriteHeader c :: evs)) with (c :: headerCodes evs).
    rewrite last_cons. by destruct (last (headerCodes evs)).
  - cbn [run asHijacker logWriter_ResponseWriter].
    destruct (logWriter_Hijack r) as [res r'] eqn:Hhj.
    assert (code r' = code r) as Hcode.
    { unfold logWriter_Hijack in Hhj. destruct asHijacker as [hj|].
      - destruct (hj (inner r)). by simplify_eq.
      - by simplify_eq. }
    specialize (IH (Some res) r').
    destruct (run (k (Some res)) r') as [evs r'']. cbn [fst snd] in *.
    by rewrite IH, Hcode.
Qed.

(** The byte count after a run is the wrapped sum of the counts the
    calls of [Write] returned. *)
Lemma run_bytes h r :
  MinInt <= bytes r <= MaxInt ->
  bytes (run h r).2 = wrap_int (bytes r + sumZ (writeCounts (run h r).1)).
Proof.
  revert r. induction h as [|p k IH|c k IH|k IH]; intros r Hr.
  - simpl. by rewrite Z.add_0_r, wrap_int_small.
  - cbn [run]. rewrite logWriter_Write_unfold.
    destruct (Write (inner r) p) as [[n err] w']. cbn [fst snd].
    specialize (IH n err
      {| inner := w'; code := code r; bytes := wrap_int (bytes r + n) |}
      (wrap_int_range _)).
    destruct (run (k n err) _) as [evs r'']. cbn [fst snd bytes] in *.
    rewrite IH, wrap_int_add_l.
    change (writeCounts (EvWrite p n err :: evs)) with (n :: writeCounts evs).
    cbn [sumZ foldr]. f_equal. unfold sumZ. lia.
  - cbn [run]. specialize (IH (WriteHeader r c) Hr).
    destruct (run k (WriteHeader r c)) as [evs r'']. exact IH.
  - cbn [run asHijacker logWriter_ResponseWriter].
    destruct (logWriter_Hijack r) as [res r'] eqn:Hhj.
    assert (bytes r' = bytes r) as Hbytes.
    { unfold logWriter_Hijack in Hhj. destruct asHijacker as [hj|].
      - destruct (hj (inner r)). by simplify_eq.
      - by simplify_eq. }
    specialize (IH (Some res) r').
    destruct (run (k (Some res)) r') as [evs r'']. cbn [fst snd] in *.
    rewrite IH, Hbytes; [done|lia].
Qed.

(** A sequence of writes through the capturing writer is the same
    sequence on the writer it wraps, with the counts added up. *)
Lemma writes_capture (ps : list string) r :
  MinInt <= bytes r <= MaxInt ->
  writes ps r
  = ((writes ps (inner r)).1,
     {| inner := (writes ps (inner r)).2; code := code r;
        bytes := wrap_int (bytes r + sumZ (writes ps (inner r)).1.*1) |}).
Proof.
  revert r. induction ps as [|p ps IH]; intros r Hr.
  - simpl. rewrite Z.add_0_r, wrap_int_small by done. by destruct r.
  - cbn [writes]. rewrite logWriter_Write_unfold.
    destruct (Write (inner r) p) as [[n err] w'].
    rewrite IH by apply wrap_int_range. cbn [inner code bytes fst snd].
    destruct (writes ps w') as [rest w'']. cbn [fst snd fmap list_fmap].
    rewrite wrap_int_add_l. do 3 f_equal. cbn [sumZ foldr fst]. unfold sumZ. lia.
Qed.

Lemma writes_take (k : nat) (ps : list string) w :
  (writes (take k ps) w).1 = take k (writes ps w).1.
Proof.
  revert k w. induction ps as [|p ps IH]; intros k w.
  - by destruct k.
  - destruct k as [|k]; [done|]. cbn [take writes].
    destruct (Write w p) as [res w']. specialize (IH k w').
    destruct (writes (take k ps) w') as [rest1 w1].
    destruct (writes ps w') as [rest w'']. cbn [fst] in *. by rewrite IH.
Qed.

(** C2: after a sequence of writes through a fresh capturing writer,
    [bytes] is the sum of the counts the underlying writer returned,
    short writes included, and it does not decrease from one call to the
    next; the counts are those of an [io.Writer] (not negative) and their
    sum fits an [int]. *)
Theorem bytes_is_sum_of_counts (ps : list string) w :
  let writer := {| inner := w; code := StatusOK; bytes := 0 |} in
  let counts := (writes ps w).1.*1 in
  Forall (fun n => 0 <= n) counts ->
  sumZ counts <= MaxInt ->
  bytes (writes ps writer).2 = sumZ counts
  /\ forall k : nat,
       bytes (writes (take k ps) writer).2
       <= bytes (writes (take (S k) ps) writer).2.
Proof.
  intros writer counts Hpos Hmax.
  assert (MinInt <= bytes writer <= MaxInt) as H0 by (by vm_compute).
  assert (forall k : nat,
    bytes (writes (take k ps) writer).2 = sumZ (take k counts)) as Hk.
  { intros k. rewrite writes_capture by done.
    cbn [snd bytes]. change (inner writer) with w. change (bytes writer) with 0.
    rewrite writes_take, fmap_take. fold counts. rewrite Z.add_0_l.
    apply wrap_int_small.
    destruct k as [|k].
    - by rewrite take_0.
    - destruct (sumZ_take_le k counts Hpos) as [[? ?] ?].
      unfold MinInt, MaxInt, intSize in *. lia. }
  split.
  - rewrite writes_capture by done.
    cbn [snd bytes]. change (inner writer) with w. change (bytes writer) with 0.
    fold counts. rewrite Z.add_0_l. apply wrap_int_small.
    pose proof (sumZ_nonneg counts Hpos).
    unfold MinInt, MaxInt, intSize in *. lia.
  - intros k. rewrite !Hk.
    by destruct (sumZ_take_le k counts Hpos) as [[? ?] ?].
Qed.
End WriterFacts.

(** ** The colour table *)
Section TableFacts.
Implicit Types (m : gmap Z string) (k : Z).

Lemma blank_lookup (l : list Z) m k :
  foldr (fun j acc => <[j := ""]> acc) m l !! k
  = if decide (k ∈ l) then Some "" else m !! k.
Proof.
  induction l as [|j l IH]; cbn [foldr].
  - by rewrite decide_False by apply not_elem_of_nil.
  - rewrite lookup_insert. destruct (decide (j = k)) as [->|Hne].
    + by rewrite decide_True by (apply elem_of_cons; by left).
    + rewrite IH. destruct (decide (k ∈ l)) as [Hin|Hout].
      * by rewrite decide_True by (apply elem_of_cons; by right).
      * rewrite decide_False; [done|].
        intros [Heq|Hin]%elem_of_cons; [by apply Hne|by apply Hout].
Qed.

(** Off a terminal, [checkTTY] leaves the empty string under every key. *)
Lemma checkTTY_not_terminal m k : index (checkTTY false m) k = "".
Proof.
  unfold index, checkTTY. cbn [negb]. rewrite blank_lookup.
  destruct (decide (k ∈ (map_to_list m).*1)) as [Hin|Hout]; [done|].
  destruct (m !! k) as [x|] eqn:Hk; [|done].
  exfalso. apply Hout. apply list_elem_of_fmap. exists (k, x).
  split; [done|]. by apply elem_of_map_to_list.
Qed.

Lemma checkTTY_terminal m : checkTTY true m = m.
Proof. done. Qed.
End TableFacts.

(** ** The decorator, first two revisions *)
Section LegacyFacts.
Context {Conn ReadWriter W : Type} `{!ResponseWriter Conn ReadWriter W}.
Context `{!Collaborators}.
Implicit Types (next : Request -> prog Conn ReadWriter) (w : W).
Implicit Types (req : Request) (start stop : Z) (table : gmap Z string).

Lemma Legacy_served next table w req start stop (lines : list string) :
  let host :=
    if bool_decide (LastIndex (RemoteAddr req) ":" ≠ -1)
    then slice_to (RemoteAddr req) (LastIndex (RemoteAddr req) ":")
    else RemoteAddr req in
  let writer :=
    ServeHTTP (next req) {| inner := w; code := StatusOK; bytes := 0 |} in
  let status := Itoa (code writer) +:+ " " +:+ StatusText (code writer) in
  Legacy.handlerFunc next table w (Some req) start stop lines
  = (Returned writer,
     (lines
      ++ [(index table darkGrey +:+ "<-") +:+ " "
          +:+ (index table violet +:+ Method req) +:+ " "
          +:+ (index table grey +:+ RequestURI req) +:+ " "
          +:+ (index table darkGrey +:+ host) +:+ reset])
     ++ [(index table darkGrey +:+ "->") +:+ " "
         +:+ (if code writer <? 300 then index table green +:+ status
              else if code writer <? 400 then index table yellow +:+ status
              else if code writer <? 500 then index table cyan +:+ status
              else index table red +:+ status)
         +:+ " " +:+ (index table grey +:+ Itoa (bytes writer) +:+ "B")
         +:+ " "
         +:+ (index table darkGrey +:+ Duration_String (Sub stop start))
         +:+ reset]).
Proof. reflexivity. Qed.

Lemma Humanized_served next table w req start stop (lines : list string) :
  let host :=
    if bool_decide (LastIndex (RemoteAddr req) ":" ≠ -1)
    then slice_to (RemoteAddr req) (LastIndex (RemoteAddr req) ":")
    else RemoteAddr req in
  let writer :=
    ServeHTTP (next req) {| inner := w; code := StatusOK; bytes := 0 |} in
  let status := Itoa (code writer) +:+ " " +:+ StatusText (code writer) in
  Humanized.handlerFunc next table w (Some req) start stop lines
  = (Returned writer,
     (lines
      ++ [(index table darkGrey +:+ "<-") +:+ " "
          +:+ (index table violet +:+ Method req) +:+ " "
          +:+ (index table grey +:+ RequestURI req) +:+ " "
          +:+ (index table darkGrey +:+ host) +:+ reset])
     ++ [(index table darkGrey +:+ "->") +:+ " "
         +:+ (if code writer <? 300 then index table green +:+ status
              else if code writer <? 400 then index table yellow +:+ status
              else if code writer <? 500 then index table cyan +:+ status
              else index table red +:+ status)
         +:+ " " +:+ (index table grey +:+ formattedBytes (bytes writer))
         +:+ " "
         +:+ (index table darkGrey +:+ Duration_String (Sub stop start))
         +:+ reset]).
Proof. reflexivity. Qed.

Lemma if_same {A} (b : bool) (x : A) : (if b then x else x) = x.
Proof. by destruct b. Qed.

(** C7, on the code: off a terminal every entry of the colour table is
    empty, yet both lines still end with the escape sequence [reset]. *)
Theorem not_terminal_lines_keep_reset next w req start stop :
  let srv := Legacy.Middleware (W := W) false colors next in
  let writer :=
    ServeHTTP (next req) {| inner := w; code := StatusOK; bytes := 0 |} in
  (forall k, index srv.1 k = "")
  /\ (exists host,
       srv.2 srv.1 w (Some req) start stop []
       = (Returned writer,
          ["<- " +:+ Method req +:+ " " +:+ RequestURI req +:+ " "
           +:+ host +:+ reset;
           "-> "
           +:+ (Itoa (code writer) +:+ " " +:+ StatusText (code writer))
           +:+ " " +:+ (Itoa (bytes writer) +:+ "B")
           +:+ " " +:+ Duration_String (Sub stop start) +:+ reset]))
  /\ reset = String "027" "[0m".
Proof.
  intros srv writer. split; [apply checkTTY_not_terminal|].
  split; [|reflexivity].
  unfold srv, Legacy.Middleware. cbn [fst snd].
  rewrite Legacy_served. rewrite !checkTTY_not_terminal, !if_same.
  eexists. reflexivity.
Qed.
End LegacyFacts.

(** ** The decorator, current revision *)
Section LipglossFacts.
Import Lipgloss.
Context {Conn ReadWriter W : Type} `{!ResponseWriter Conn ReadWriter W}.
Context `{!Collaborators}.
Implicit Types (next : Request -> prog Conn ReadWriter) (w : W).
Implicit Types (req : Request) (start stop : Z).

(** With a request at hand the handler function returns, having logged
    the request line and then the response line. *)
Lemma Middleware_served next w req start stop (lines : list string) :
  let host :=
    if bool_decide (LastIndex (RemoteAddr req) ":" ≠ -1)
    then slice_to (RemoteAddr req) (LastIndex (RemoteAddr req) ":")
    else RemoteAddr req in
  let writer :=
    ServeHTTP (next req) {| inner := w; code := StatusOK; bytes := 0 |} in
  Middleware next w (Some req) start stop lines
  = (Returned writer,
     (lines
      ++ [Render subtleStyle "<-" +:+ " "
          +:+ Render methodStyle (Method req) +:+ " "
          +:+ Render uriStyle (RequestURI req) +:+ " "
          +:+ Render addressStyle host])
     ++ [Render subtleStyle "->" +:+ " "
         +:+ Render (statusStyle (code writer))
               (Itoa (code writer) +:+ " " +:+ StatusText (code writer))
         +:+ " " +:+ Render subtleStyle (formattedBytes (bytes writer))
         +:+ " " +:+ Render timeStyle (Duration_String (Sub stop start))]).
Proof. reflexivity. Qed.

(** C1: the status in the response line is the last one the inner
    handler set with [WriteHeader], and 200 when it set none. *)
Theorem logged_status_is_last_set next w req start stop :
  let fresh := {| inner := w; code := StatusOK; bytes := 0 |} in
  let evs := (run (next req) fresh).1 in
  let c := default StatusOK (last (headerCodes evs)) in
  (headerCodes evs = [] -> c = 200)
  /\ code (ServeHTTP (next req) fresh) = c
  /\ exists reqLine size time,
       Middleware next w (Some req) start stop []
       = (Returned (ServeHTTP (next req) fresh),
          [reqLine;
           Render subtleStyle "->" +:+ " "
           +:+ Render (statusStyle c) (Itoa c +:+ " " +:+ StatusText c)
           +:+ " " +:+ size +:+ " " +:+ time]).
Proof.
  intros fresh evs c. split; [|split].
  - unfold c. by intros ->.
  - apply run_code.
  - unfold c, evs. rewrite <- (run_code (next req) fresh).
    rewrite Middleware_served. by eexists _, _, _.
Qed.

(** C3: the style of the status is one of four, by range. *)
Theorem status_bands (c : Z) :
  (100 <= c < 300 -> statusStyle c = http200Style)
  /\ (300 <= c < 400 -> statusStyle c = http300Style)
  /\ (400 <= c < 500 -> statusStyle c = http400Style)
  /\ (500 <= c -> statusStyle c = http500Style)
  /\ (http200Style <> http300Style /\ http200Style <> http400Style
      /\ http200Style <> http500Style /\ http300Style <> http400Style
      /\ http300Style <> http500Style /\ http400Style <> http500Style)
  /\ (statusStyle 204 = http200Style /\ statusStyle 301 = http300Style
      /\ statusStyle 404 = http400Style /\ statusStyle 503 = http500Style)
  /\ (statusStyle 299 = http200Style /\ statusStyle 300 = http300Style
      /\ statusStyle 399 = http300Style /\ statusStyle 400 = http400Style
      /\ statusStyle 499 = http400Style /\ statusStyle 500 = http500Style).
Proof.
  unfold statusStyle. repeat split; try done; intros Hc.
  - by destruct (Z.ltb_spec c 300); [|lia].
  - destruct (Z.ltb_spec c 300); [lia|].
    by destruct (Z.ltb_spec c 400); [|lia].
  - destruct (Z.ltb_spec c 300); [lia|].
    destruct (Z.ltb_spec c 400); [lia|].
    by destruct (Z.ltb_spec c 500); [|lia].
  - destruct (Z.ltb_spec c 300); [lia|].
    destruct (Z.ltb_spec c 400); [lia|].
    by destruct (Z.ltb_spec c 500); [lia|].
Qed.

(** C4: the address in the request line is the remote address up to its
    last colon, and the whole of it when it has no colon. *)
Theorem remote_address_port_stripped next w req start stop :
  exists host,
    (Middleware next w (Some req) start stop []).2 !! 0%nat
    = Some (Render subtleStyle "<-" +:+ " "
            +:+ Render methodStyle (Method req) +:+ " "
            +:+ Render uriStyle (RequestURI req) +:+ " "
            +:+ Render addressStyle host)
    /\ (forall pre post,
          RemoteAddr req = pre +:+ ":" +:+ post ->
          occurs ":" post = false -> host = pre)
    /\ (occurs ":" (RemoteAddr req) = true ->
        exists post,
          RemoteAddr req = host +:+ ":" +:+ post /\ occurs ":" post = false)
    /\ (occurs ":" (RemoteAddr req) = false -> host = RemoteAddr req)
    /\ (RemoteAddr req = "10.0.0.5:54321" -> host = "10.0.0.5").
Proof.
  rewrite Middleware_served. eexists. split; [reflexivity|].
  assert (forall pre post,
    RemoteAddr req = pre +:+ ":" +:+ post -> occurs ":" post = false ->
    (if bool_decide (LastIndex (RemoteAddr req) ":" ≠ -1)
     then slice_to (RemoteAddr req) (LastIndex (RemoteAddr req) ":")
     else RemoteAddr req) = pre) as Hsplit.
  { intros pre post -> Hpost.
    change (":" +:+ post) with (String ":" post).
    rewrite (LastIndex_split _ _ _ Hpost).
    rewrite bool_decide_true by (unfold len; lia).
    apply slice_to_prefix. }
  split; [exact Hsplit|]. split; [|split].
  - intros (pre & post & Haddr & Hpost)%occurs_split_last.
    exists post. by rewrite (Hsplit pre post Haddr Hpost).
  - intros Hnone. rewrite (LastIndex_absent _ _ Hnone).
    by rewrite bool_decide_false by (intros Hne; by apply Hne).
  - intros Haddr. by apply (Hsplit "10.0.0.5" "54321").
Qed.

(** C5, on the code: with a nil request the handler function panics at
    [addr := r.RemoteAddr], before the guard [if r == nil]; nothing is
    written to the writer and nothing is logged. *)
Theorem nil_request_panics next w start stop (lines : list string) :
  Middleware next w None start stop lines = (Panicked, lines).
Proof. reflexivity. Qed.

(** C10, on the code: with a nil request no response line is logged, so
    no byte count is reported. *)
Theorem nil_request_logs_no_byte_count next w start stop :
  (Middleware next w None start stop []).2 = []
  /\ forall writer, (Middleware next w None start stop []).1 <> Returned writer.
Proof. split; [reflexivity|]. intros writer. discriminate. Qed.

(** C9: the byte count in the response line is [humanize.Bytes] of the
    captured count without its first space: the number and the unit,
    side by side. *)
Theorem byte_count_is_humanized_without_space next w req start stop :
  let writer := ServeHTTP (next req) {| inner := w; code := StatusOK; bytes := 0 |} in
  (exists reqLine status time,
     Middleware next w (Some req) start stop []
     = (Returned writer,
        [reqLine;
         Render subtleStyle "->" +:+ " " +:+ status +:+ " "
         +:+ Render subtleStyle (formattedBytes (bytes writer))
         +:+ " " +:+ time]))
  /\ (forall table, exists reqLine status time,
     Humanized.handlerFunc next table w (Some req) start stop []
     = (Returned writer,
        [reqLine;
         (index table darkGrey +:+ "->") +:+ " " +:+ status +:+ " "
         +:+ (index table grey +:+ formattedBytes (bytes writer))
         +:+ " " +:+ time +:+ reset]))
  /\ (forall num unit,
        humanize_Bytes (uint64 (bytes writer)) = num +:+ " " +:+ unit ->
        occurs " " num = false ->
        formattedBytes (bytes writer) = num +:+ unit
        /\ (occurs " " unit = false ->
            occurs " " (formattedBytes (bytes writer)) = false))
  /\ (bytes writer = 6 -> humanize_Bytes 6 = "6 B" ->
      formattedBytes (bytes writer) = "6B")
  /\ (bytes writer = 0 -> humanize_Bytes 0 = "0 B" ->
      formattedBytes (bytes writer) = "0B").
Proof.
  intros writer.
  assert (forall n num unit,
    humanize_Bytes (uint64 n) = num +:+ " " +:+ unit ->
    occurs " " num = false -> formattedBytes n = num +:+ unit) as Hfmt.
  { intros n num unit Hh Hnum. unfold formattedBytes. rewrite Hh.
    by apply Replace_first_space. }
  split; [rewrite Middleware_served; by eexists _, _, _|].
  split; [intros table; rewrite Humanized_served; by eexists _, _, _|].
  split; [|split].
  - intros num unit Hh Hnum. rewrite (Hfmt _ _ _ Hh Hnum). split; [done|].
    intros Hunit. by rewrite occurs_app, Hnum, Hunit.
  - intros -> H6. by apply (Hfmt 6 "6" "B").
  - intros -> H0. by apply (Hfmt 0 "0" "B").
Qed.
End LipglossFacts.

(** ** The example program, run *)
Section Examples.
#[local] Existing Instance recorder_plain.

(** Three writes on a writer that takes four bytes a call: two of them are
    short, and the capture adds up what was taken. *)
Lemma bytes_is_sum_of_counts_witness :
  bytes (writes ["oh hey"; "ouch"; "nope, not here"]
           {| inner := fresh 4; code := StatusOK; bytes := 0 |}).2 = 12
  /\ forall k : nat,
       bytes (writes (take k ["oh hey"; "ouch"; "nope, not here"])
                {| inner := fresh 4; code := StatusOK; bytes := 0 |}).2
       <= bytes (writes (take (S k) ["oh hey"; "ouch"; "nope, not here"])
                   {| inner := fresh 4; code := StatusOK; bytes := 0 |}).2.
Proof.
  change 12
    with (sumZ (writes ["oh hey"; "ouch"; "nope, not here"] (fresh 4)).1.*1).
  apply (bytes_is_sum_of_counts (W := recorder)
           ["oh hey"; "ouch"; "nope, not here"] (fresh 4)).
  - repeat constructor; by vm_compute.
  - by vm_compute.
Defined.

(** GET "/" from 127.0.0.1:9999: no colour, 200, six bytes. *)
Example get_root_is_logged :
  Lipgloss.Middleware (H := plain) exampleHandler (fresh 100)
    (Some getRoot) 10 25 []
  = (Returned
       {| inner := {| limit := 100; status := Some 200; body := "oh hey" |};
          code := 200; bytes := 6 |},
     ["<- GET / 127.0.0.1"; "-> 200 OK 6B 15ns"]).
Proof. by vm_compute. Qed.

(** POST "/meow": the redirect style, and the bytes the handler wrote. *)
Example post_meow_is_logged :
  Lipgloss.Middleware (H := sampleCollaborators darkRender) exampleHandler
    (fresh 100) (Some postMeow) 10 25 [] 
  = (Returned
       {| inner := {| limit := 100; status := Some 307;
                      body := "it's over there" |};
          code := 307; bytes := 15 |},
     [darkRender Lipgloss.subtleStyle "<-" +:+ " "
      +:+ darkRender Lipgloss.methodStyle "POST" +:+ " "
      +:+ darkRender Lipgloss.uriStyle "/meow" +:+ " "
      +:+ darkRender Lipgloss.addressStyle "10.0.0.5";
      darkRender Lipgloss.subtleStyle "->" +:+ " "
      +:+ darkRender Lipgloss.http300Style "307 Temporary Redirect" +:+ " "
      +:+ darkRender Lipgloss.subtleStyle "15B" +:+ " "
      +:+ darkRender Lipgloss.timeStyle "15ns"]).
Proof. by vm_compute. Qed.

(** A nil request: a panic, nothing logged. *)
Example nil_request_is_not_logged :
  Lipgloss.Middleware (H := plain) exampleHandler (fresh 100) None 10 25 []
  = (Panicked, []).
Proof. reflexivity. Qed.

(** The first revision off a terminal: the table is blank, the lines
    still end with the reset sequence. *)
Example legacy_off_terminal :
  let srv := Legacy.Middleware (H := plain) false colors exampleHandler in
  srv.2 srv.1 (fresh 100) (Some getRoot) 10 25 []
  = (Returned
       {| inner := {| limit := 100; status := Some 200; body := "oh hey" |};
          code := 200; bytes := 6 |},
     ["<- GET / 127.0.0.1" +:+ reset; "-> 200 OK 6B 15ns" +:+ reset]).
Proof. by vm_compute. Qed.

(** On a terminal the same request is logged in colour. *)
Example legacy_on_terminal :
  let srv := Legacy.Middleware (H := plain) true colors exampleHandler in
  (srv.2 srv.1 (fresh 100) (Some getRoot) 10 25 []).2
  = [fg +:+ "240m<-" +:+ " " +:+ fg +:+ "62mGET" +:+ " " +:+ fg +:+ "250m/"
     +:+ " " +:+ fg +:+ "240m127.0.0.1" +:+ reset;
     fg +:+ "240m->" +:+ " " +:+ fg +:+ "48m200 OK" +:+ " "
     +:+ fg +:+ "250m6B" +:+ " " +:+ fg +:+ "240m15ns" +:+ reset].
Proof. by vm_compute. Qed.

(** A writer with a connection to give hands it over through the
    capturing writer; one without makes [Hijack] fail. *)
Example hijack_supported :
  (logWriter_Hijack (ResponseWriter0 := recorder_hijackable)
     {| inner := fresh 100; code := 200; bytes := 0 |}).1
  = (Some tt, Some tt, None).
Proof. reflexivity. Qed.

Example hijack_unsupported :
  (logWriter_Hijack (ResponseWriter0 := recorder_plain)
     {| inner := fresh 100; code := 200; bytes := 0 |}).1
  = (None, None, Some "WebServer does not support hijacking"%string).
Proof. reflexivity. Qed.
End Examples.

(** * Further facts *)

(** ** The capturing writer is transparent *)
Section Transparency.
Context {Conn ReadWriter W : Type} `{!ResponseWriter Conn ReadWriter W}.
Context `{!Collaborators}.
Implicit Types (r : logWriter W) (w : W) (h : prog Conn ReadWriter).
Implicit Types (next : Request -> prog Conn ReadWriter).
Implicit Types (req : Request) (start stop : Z) (table : gmap Z string).




(** X2: whatever the handler does, the captured byte count is the sum
    of the counts its calls of [Write] returned, wrapped to an [int];
    calls of [WriteHeader] and [Hijack] in between do not change it. *)
Theorem captured_bytes_wrap_sum h w :
  let served := run h {| inner := w; code := StatusOK; bytes := 0 |} in
  bytes served.2 = wrap_int (sumZ (writeCounts served.1))
  /\ MinInt <= bytes served.2 <= MaxInt.
Proof.
  intros served. unfold served.
  rewrite run_bytes by (by vm_compute). cbn [bytes]. rewrite Z.add_0_l.
  split; [done|apply wrap_int_range].
Qed.

(** X3: when the counts are those of an [io.Writer] and their sum fits
    an [int], the response line shows that sum: humanized in the current
    revision, in decimal followed by "B" in the first. *)
Theorem logged_byte_count_is_sum next w req start stop table :
  let served :=
    run (next req) {| inner := w; code := StatusOK; bytes := 0 |} in
  let total := sumZ (writeCounts served.1) in
  Forall (fun n => 0 <= n) (writeCounts served.1) ->
  total <= MaxInt ->
  (exists reqLine status time,
     Lipgloss.Middleware next w (Some req) start stop []
     = (Returned served.2,
        [reqLine;
         Render Lipgloss.subtleStyle "->" +:+ " " +:+ status +:+ " "
         +:+ Render Lipgloss.subtleStyle
               (Replace (humanize_Bytes total) " " "" 1)
         +:+ " " +:+ time]))
  /\ (exists reqLine status time,
     Legacy.handlerFunc next table w (Some req) start stop []
     = (Returned served.2,
        [reqLine;
         (index table darkGrey +:+ "->") +:+ " " +:+ status +:+ " "
         +:+ (index table grey +:+ Itoa total +:+ "B")
         +:+ " " +:+ time +:+ reset])).
Proof.
  intros served total Hpos Hmax.
  assert (bytes served.2 = total) as Hb.
  { unfold served. rewrite run_bytes by (by vm_compute).
    cbn [bytes]. rewrite Z.add_0_l. apply wrap_int_small.
    pose proof (sumZ_nonneg _ Hpos). fold served. fold total.
    unfold MinInt, MaxInt, intSize in *. lia. }
  assert (uint64 total = total) as Hu.
  { unfold uint64. apply Z.mod_small.
    pose proof (sumZ_nonneg _ Hpos). fold total in H0.
    unfold MaxInt, intSize in Hmax. lia. }
  split.
  - rewrite Middleware_served. cbv zeta.
    change (ServeHTTP (next req) {| inner := w; code := StatusOK; bytes := 0 |})
      with served.2.
    unfold formattedBytes. rewrite Hb, Hu. by eexists _, _, _.
  - rewrite Legacy_served. cbv zeta.
    change (ServeHTTP (next req) {| inner := w; code := StatusOK; bytes := 0 |})
      with served.2.
    rewrite Hb. by eexists _, _, _.
Qed.

(** X8: the request line is settled by the request alone: the inner
    handler, the writer and the clock do not show in it; the lines
    already in the log are kept and exactly two are added. *)
Theorem request_line_depends_on_request_only
    next next' w w' req start stop start' stop' (lines : list string) :
  exists reqLine resp resp',
    (Lipgloss.Middleware next w (Some req) start stop lines).2
    = lines ++ [reqLine; resp]
    /\ (Lipgloss.Middleware next' w' (Some req) start' stop' lines).2
       = lines ++ [reqLine; resp'].
Proof.
  rewrite !Middleware_served. cbn [snd].
  eexists _, _, _. rewrite <- !(assoc_L (++)). split; reflexivity.
Qed.
End Transparency.

(** ** The colour table under [checkTTY] *)
Section CheckTTYFacts.
Implicit Types (m : gmap Z string) (k : Z) (b : bool).

Lemma checkTTY_false_fmap m : checkTTY false m = (fun _ => ""%string) <$> m.
Proof.
  apply map_eq. intros k. unfold checkTTY. cbn [negb].
  rewrite blank_lookup, lookup_fmap.
  destruct (decide (k ∈ (map_to_list m).*1)) as [Hin|Hout].
  - apply list_elem_of_fmap in Hin as ([k' x] & -> & Hin).
    apply elem_of_map_to_list in Hin. cbn [fst]. by rewrite Hin.
  - destruct (m !! k) as [x|] eqn:Hk; [|done].
    exfalso. apply Hout. apply list_elem_of_fmap. exists (k, x).
    split; [done|]. by apply elem_of_map_to_list.
Qed.

(** X5: [checkTTY] never adds or removes a key.  On a terminal the
    table is left as it is; off a terminal every entry becomes the empty
    string, and no later check brings a colour back.  Checking twice is
    checking once. *)
Theorem checkTTY_keeps_keys m b b' :
  dom (checkTTY b m) = dom m
  /\ checkTTY true m = m
  /\ (forall k, is_Some (m !! k) -> checkTTY false m !! k = Some ""%string)
  /\ (forall k, index (checkTTY b' (checkTTY false m)) k = ""%string)
  /\ checkTTY b (checkTTY b m) = checkTTY b m.
Proof.
  split; [|split; [|split; [|split]]].
  - destruct b; [done|]. rewrite checkTTY_false_fmap. apply dom_fmap_L.
  - done.
  - intros k [x Hk]. by rewrite checkTTY_false_fmap, lookup_fmap, Hk.
  - intros k. destruct b'; [apply checkTTY_not_terminal|].
    apply checkTTY_not_terminal.
  - destruct b; [done|]. rewrite !checkTTY_false_fmap.
    rewrite <- map_fmap_compose. done.
Qed.
End CheckTTYFacts.

(** ** More on the decorators *)
Section MoreDecoratorFacts.
Context {Conn ReadWriter W : Type} `{!ResponseWriter Conn ReadWriter W}.
Context `{!Collaborators}.
Implicit Types (next : Request -> prog Conn ReadWriter) (w : W).
Implicit Types (req : Request) (start stop : Z).

(** X6: on a terminal the first revision logs the last status the
    handler set (200 when it set none) in green below 300, codes under
    100 included, in yellow from 300, in cyan from 400 and in red from
    500; the arrow before it is dark grey. *)
Theorem legacy_status_colour next w req start stop :
  let srv := Legacy.Middleware (W := W) true colors next in
  let served :=
    run (next req) {| inner := w; code := StatusOK; bytes := 0 |} in
  let c := default StatusOK (last (headerCodes served.1)) in
  exists reqLine colour rest,
    srv.2 srv.1 w (Some req) start stop []
    = (Returned served.2,
       [reqLine;
        (fg +:+ "240" +:+ end' +:+ "->") +:+ " "
        +:+ (colour +:+ Itoa c +:+ " " +:+ StatusText c) +:+ rest])
    /\ (c < 300 -> colour = fg +:+ "48" +:+ end')
    /\ (300 <= c < 400 -> colour = fg +:+ "192" +:+ end')
    /\ (400 <= c < 500 -> colour = fg +:+ "86" +:+ end')
    /\ (500 <= c -> colour = fg +:+ "204" +:+ end').
Proof.
  intros srv served c. unfold srv, Legacy.Middleware. cbn [fst snd].
  rewrite checkTTY_terminal, Legacy_served. cbv zeta.
  change (ServeHTTP (next req) {| inner := w; code := StatusOK; bytes := 0 |})
    with served.2.
  assert (code served.2 = c) as -> by apply run_code.
  exists
    ((index colors darkGrey +:+ "<-") +:+ " "
     +:+ (index colors violet +:+ Method req) +:+ " "
     +:+ (index colors grey +:+ RequestURI req) +:+ " "
     +:+ (index colors darkGrey
          +:+ (if bool_decide (LastIndex (RemoteAddr req) ":" ≠ -1)
               then slice_to (RemoteAddr req) (LastIndex (RemoteAddr req) ":")
               else RemoteAddr req)) +:+ reset),
    (if c <? 300 then index colors green
     else if c <? 400 then index colors yellow
     else if c <? 500 then index colors cyan
     else index colors red),
    (" " +:+ (index colors grey +:+ Itoa (bytes served.2) +:+ "B")
     +:+ " " +:+ (index colors darkGrey +:+ Duration_String (Sub stop start))
     +:+ reset).
  split.
  - cbn [app]. do 3 f_equal.
    by destruct (c <? 300), (c <? 400), (c <? 500).
  - repeat split; intros Hc.
    + by destruct (Z.ltb_spec c 300); [|lia].
    + destruct (Z.ltb_spec c 300); [lia|].
      by destruct (Z.ltb_spec c 400); [|lia].
    + destruct (Z.ltb_spec c 300); [lia|].
      destruct (Z.ltb_spec c 400); [lia|].
      by destruct (Z.ltb_spec c 500); [|lia].
    + destruct (Z.ltb_spec c 300); [lia|].
      destruct (Z.ltb_spec c 400); [lia|].
      by destruct (Z.ltb_spec c 500); [lia|].
Qed.

Lemma replaceFrom_no_space (fuel : nat) (s : string) :
  occurs " " s = false -> replaceFrom fuel s " " "" 1 = s.
Proof.
  revert fuel. induction s as [|a s IH]; intros fuel Hocc.
  - by destruct fuel.
  - destruct fuel as [|fuel]; [done|].
    simpl in Hocc. apply orb_false_iff in Hocc as [Ha Hs].
    cbn [replaceFrom Z.eqb]. rewrite (trimPrefix_space_miss _ _ Ha).
    f_equal. by apply IH.
Qed.

(** The first occurrence of [c] in a string that has one. *)
Lemma occurs_split_first (c : ascii) (s : string) :
  occurs c s = true ->
  exists pre post, s = pre +:+ String c post /\ occurs c pre = false.
Proof.
  induction s as [|a s IH]; simpl; [done|].
  destruct (Ascii.eqb_spec a c) as [->|Hne].
  - intros _. by exists EmptyString, s.
  - cbn [orb]. intros Hs. destruct (IH Hs) as (pre & post & -> & Hpre).
    exists (String a pre), post. split; [done|]. simpl.
    rewrite Hpre. by destruct (Ascii.eqb_spec a c).
Qed.

Lemma length_append (s1 s2 : string) :
  String.length (s1 +:+ s2) = (String.length s1 + String.length s2)%nat.
Proof. induction s1 as [|a s1 IH]; simpl; [done|]. by rewrite IH. Qed.

(** X7: the logged byte count is what [humanize.Bytes] printed, less its
    first space and nothing else: a text without a space is kept whole,
    and spaces after the first one stay. *)
Theorem formattedBytes_drops_first_space_only (n : Z) :
  let out := humanize_Bytes (uint64 n) in
  (occurs " " out = false -> formattedBytes n = out)
  /\ (occurs " " out = true ->
      exists a b, out = a +:+ " " +:+ b /\ occurs " " a = false
                  /\ formattedBytes n = a +:+ b)
  /\ String.length (formattedBytes n)
     = (String.length out - (if occurs " " out then 1 else 0))%nat.
Proof.
  intros out.
  assert (occurs " " out = true ->
    exists a b, out = a +:+ " " +:+ b /\ occurs " " a = false
                /\ formattedBytes n = a +:+ b) as Hsome.
  { intros (a & b & Hout & Ha)%occurs_split_first.
    exists a, b. split; [done|]. split; [done|].
    unfold formattedBytes. fold out. rewrite Hout.
    by apply (Replace_first_space a b). }
  assert (occurs " " out = false -> formattedBytes n = out) as Hnone.
  { intros Hocc. unfold formattedBytes, Replace. fold out.
    by apply replaceFrom_no_space. }
  split; [done|]. split; [done|].
  destruct (occurs " " out) eqn:Hocc.
  - destruct (Hsome eq_refl) as (a & b & Hout & _ & ->).
    rewrite Hout, !length_append.
    change (" " +:+ b) with (String " " b). simpl. lia.
  - rewrite (Hnone eq_refl). lia.
Qed.


End MoreDecoratorFacts.

(** ** The handler of the example program *)
Section ExampleHandlerFacts.
Context {W : Type} `{!ResponseWriter unit unit W}.

(** X4: the example handler answers by the request URI alone: 200 for
    "/", 307 for "/meow", 404 for "/purr" and 500 for every other URI,
    whatever the method and whatever its [Write] returns; it sets the
    status once and then writes once. *)
Theorem example_handler_routes (w : W) (req : Request) :
  let served :=
    run (exampleHandler req) {| inner := w; code := StatusOK; bytes := 0 |} in
  (exists c body n err,
     served.1 = [EvWriteHeader c; EvWrite body n err]
     /\ code served.2 = c
     /\ (n, err) = (Write (WriteHeader w c) body).1)
  /\ (RequestURI req = "/"%string -> code served.2 = 200)
  /\ (RequestURI req = "/meow"%string -> code served.2 = 307)
  /\ (RequestURI req = "/purr"%string -> code served.2 = 404)
  /\ (RequestURI req <> "/"%string -> RequestURI req <> "/meow"%string ->
      RequestURI req <> "/purr"%string -> code served.2 = 500).
Proof.
  intros served.
  assert (forall c body,
    exampleHandler req = DoWriteHeader c (DoWrite body (fun _ _ => Done)) ->
    (exists c' body' n err,
       served.1 = [EvWriteHeader c'; EvWrite body' n err]
       /\ code served.2 = c'
       /\ (n, err) = (Write (WriteHeader w c') body').1)
    /\ code served.2 = c) as Hshape.
  { intros c body Heq. unfold served. rewrite Heq. cbn [run].
    change (WriteHeader {| inner := w; code := StatusOK; bytes := 0 |} c)
      with {| inner := WriteHeader w c; code := c; bytes := 0 |}.
    rewrite logWriter_Write_unfold. cbn [inner code bytes].
    destruct (Write (WriteHeader w c) body) as [[n err] w'] eqn:Hw.
    cbn [fst snd code]. split; [|done]. exists c, body, n, err.
    by rewrite Hw. }
  unfold exampleHandler in Hshape.
  destruct (String.eqb_spec (RequestURI req) "/") as [H1|H1].
  { destruct (Hshape _ _ eq_refl) as [Hex Hc].
    split; [done|]. rewrite Hc.
    repeat split; try done; intros; congruence. }
  destruct (String.eqb_spec (RequestURI req) "/meow") as [H2|H2].
  { destruct (Hshape _ _ eq_refl) as [Hex Hc].
    split; [done|]. rewrite Hc.
    repeat split; try done; intros; congruence. }
  destruct (String.eqb_spec (RequestURI req) "/purr") as [H3|H3].
  { destruct (Hshape _ _ eq_refl) as [Hex Hc].
    split; [done|]. rewrite Hc.
    repeat split; try done; intros; congruence. }
  destruct (Hshape _ _ eq_refl) as [Hex Hc].
  split; [done|]. rewrite Hc. repeat split; try done; intros; congruence.
Qed.
End ExampleHandlerFacts.

(** ** The further facts on the sample writer *)
Section MoreExamples.
#[local] Existing Instance recorder_plain.



(** GET "/" on a writer that takes everything: six bytes, logged as
    "6B" by both revisions. *)
Lemma logged_byte_count_is_sum_witness :
  (exists reqLine status time,
     Lipgloss.Middleware (H := plain) exampleHandler (fresh 100)
       (Some getRoot) 10 25 []
     = (Returned
          {| inner := {| limit := 100; status := Some 200;
                         body := "oh hey" |};
             code := 200; bytes := 6 |},
        [reqLine;
         "->" +:+ " " +:+ status +:+ " " +:+ "6B" +:+ " " +:+ time]))
  /\ (exists reqLine status time,
     Legacy.handlerFunc (H := plain) exampleHandler colors (fresh 100)
       (Some getRoot) 10 25 []
     = (Returned
          {| inner := {| limit := 100; status := Some 200;
                         body := "oh hey" |};
             code := 200; bytes := 6 |},
        [reqLine;
         (index colors darkGrey +:+ "->") +:+ " " +:+ status +:+ " "
         +:+ (index colors grey +:+ "6B") +:+ " " +:+ time +:+ reset])).
Proof.
  refine (logged_byte_count_is_sum (W := recorder) (H := plain)
            exampleHandler (fresh 100) getRoot 10 25 colors _ _).
  - repeat constructor; by vm_compute.
  - by vm_compute.
Defined.

End MoreExamples.
